(** * transformers.onnx.config: the export-description protocol

    A shallow embedding of [src/transformers/onnx/config.py]: the module
    constants, the [OnnxConfig] base class and its [OnnxConfigWithPast]
    variant, together with the two helpers of [transformers/onnx/utils.py]
    that the module imports.

    Python integers are unbounded, hence [Z].  Dictionaries with string keys
    are [gmap string _]; the model configuration is a heap object referred to
    by the export configuration, so that "stored by reference" and "never
    mutated" can be stated. *)

From Stdlib Require Import ZArith String List.
From stdpp Require Import base option gmap strings list fin_maps.

Local Open Scope string_scope.
Local Open Scope Z_scope.

(** ** Python values and objects *)

(** The values that appear in override dictionaries and configuration
    attributes. *)
Inductive PyVal : Type :=
  | VNone
  | VBool (b : bool)
  | VInt (z : Z)
  | VStr (s : string).

#[global] Instance PyVal_eq_dec : EqDecision PyVal.
Proof. solve_decision. Defined.

(** An object is its attribute dictionary; the heap maps references to
    objects. *)
Abbreviation PyObj := (gmap string PyVal).
Abbreviation loc := positive.
Abbreviation Store := (gmap loc PyObj).

(** A raised exception, by class name and message. *)
Inductive PyExn : Type :=
  | Raise (cls msg : string).

(** ** A state-and-exception monad for method bodies *)

Module PyM.

Definition M (A : Type) : Type := Store -> (PyExn + A) * Store.

Definition ret {A} (a : A) : M A := fun s => (inr a, s).

Definition bind {A B} (m : M A) (k : A -> M B) : M B :=
  fun s =>
    match m s with
    | (inl e, s') => (inl e, s')
    | (inr a, s') => k a s'
    end.

Definition gets {A} (f : Store -> A) : M A := fun s => (inr (f s), s).

Definition result {A} (m : M A) (s : Store) : PyExn + A := fst (m s).
Definition final {A} (m : M A) (s : Store) : Store := snd (m s).

(** [m] reads the heap at most: it hands back the heap it was given. *)
Definition read_only {A} (m : M A) : Prop := forall s, final m s = s.

End PyM.

Notation "'do' x <- m ; k" := (PyM.bind m (fun x => k))
  (at level 10, x name, m at level 100, k at level 200,
   format "'[v' 'do'  x  <-  m ; '/' k ']'").

(** [hasattr(obj, name)] for the object a reference points to. *)
Definition hasattr (l : loc) (name : string) : PyM.M bool :=
  PyM.gets (fun s => bool_decide (is_Some (s !! l ≫= fun o : PyObj => o !! name))).

(** ** Python sequence operators used by the module *)

(** [sep.join(parts)]. *)
Definition str_join (sep : string) (parts : list string) : string :=
  String.concat sep parts.

(** [s * n] on strings: [n] copies, none when [n <= 0]. *)
Definition str_mul (s : string) (n : Z) : string :=
  String.concat "" (replicate (Z.to_nat n) s).

(** [l * n] on lists: [n] copies of [l] one after the other, none when
    [n <= 0]. *)
Definition list_mul {A} (l : list A) (n : Z) : list A :=
  mjoin (replicate (Z.to_nat n) l).

(** ** [transformers.onnx.utils] *)

Module utils.

(** Modelled from the spec: [ParameterFormat] of [onnx/utils.py], which is
    not among the sources; the spec describes an enumeration of numeric
    storage formats, each with a fixed byte width, and names 32-bit float. *)
Inductive ParameterFormat : Type :=
  | Float.

(** Modelled from the spec: the byte width of a [ParameterFormat]
    ([ParameterFormat.size] of [onnx/utils.py]); Float32 takes 4 bytes. *)
Definition size (dtype : ParameterFormat) : Z :=
  match dtype with
  | Float => 4
  end.

(** Modelled from the spec: [compute_serialized_parameters_size] of
    [onnx/utils.py] (the spec's SizeEstimator):
    [bytes = num_parameters * byte_width(format)], no clamping. *)
Definition compute_serialized_parameters_size
    (num_parameters : Z) (dtype : ParameterFormat) : Z :=
  num_parameters * size dtype.

(** Modelled from the spec: [compute_effective_axis_dimension] of
    [onnx/utils.py] (the spec's AxisDimensionResolver): a non-positive
    requested dimension is replaced by the fallback fixed dimension, then
    the reserved-token count is subtracted from that base. *)
Definition compute_effective_axis_dimension
    (dimension fixed_dimension num_token_to_add : Z) : Z :=
  let dimension := if dimension <=? 0 then fixed_dimension else dimension in
  dimension - num_token_to_add.

End utils.

(** ** Module constants *)

Definition DEFAULT_ONNX_OPSET : Z := 11.

(** 2 Gb *)
Definition EXTERNAL_DATA_FORMAT_SIZE_LIMIT : Z := 2 * 1024 * 1024 * 1024.

(** The dictionary literal, in source order; Python keeps that order. *)
Definition DEFAULT_BERT_OPTIMIZER_FEATURES_items : list (string * bool) :=
  [ ("enable_gelu", true);
    ("enable_layer_norm", true);
    ("enable_attention", true);
    ("enable_skip_layer_norm", true);
    ("enable_embed_layer_norm", true);
    ("enable_bias_skip_layer_norm", true);
    ("enable_bias_gelu", true);
    ("enable_gelu_approximation", false) ].

Definition DEFAULT_BERT_OPTIMIZER_FEATURES : gmap string bool :=
  list_to_map DEFAULT_BERT_OPTIMIZER_FEATURES_items.

(** ** Collaborators: tensors, encodings and the tokenizer *)

Section Classes.

(** Tensors and the framework hint ([TensorType]) belong to the tokenizer's
    side; this module only passes them along. *)
Context {Tensor TensorType : Type}.

(** What a tokenizer call hands back: a mapping object wrapping a
    dictionary from tensor names to tensors. *)
Record BatchEncoding : Type := { data : gmap string Tensor }.

(** [dict(encoding)]: a plain dictionary with the encoding's items. *)
Definition dict (enc : BatchEncoding) : gmap string Tensor := data enc.

(** The three capabilities of [PreTrainedTokenizer] the module relies on.
    The call may raise and may have effects of its own on the heap. *)
Record PreTrainedTokenizer : Type := {
  unk_token : string;
  num_special_tokens_to_add : bool -> Z;
  call : list string -> option TensorType -> PyM.M BatchEncoding
}.

End Classes.

Arguments BatchEncoding : clear implicits.
Arguments PreTrainedTokenizer : clear implicits.

(** ** [class OnnxConfig] *)

Module OnnxConfig.

(** An instance holds a reference to the model's configuration. *)
Record t : Type := { _config : loc }.

(** [__init__(self, config)] *)
Definition init (config : loc) : t := {| _config := config |}.

(** [default(cls, config)]: [cls] is the class the factory is called on. *)
Definition default {T} (cls : loc -> T) (config : loc) : T := cls config.

Definition values_override (self : t) : PyM.M (option (gmap string PyVal)) :=
  do has <- hasattr (_config self) "use_cache";
  if has : bool then PyM.ret (Some {[ "use_cache" := VBool false ]})
  else PyM.ret None.

Definition default_onnx_opset (self : t) : Z := DEFAULT_ONNX_OPSET.

Definition use_external_data_format (num_parameters : Z) : bool :=
  utils.compute_serialized_parameters_size num_parameters utils.Float
    >=? EXTERNAL_DATA_FORMAT_SIZE_LIMIT.

Definition generate_dummy_inputs {Tensor TensorType}
    (self : t) (tokenizer : PreTrainedTokenizer Tensor TensorType)
    (batch_size seq_length : Z) (is_pair : bool)
    (framework : option TensorType) : PyM.M (gmap string Tensor) :=
  let batch_size := utils.compute_effective_axis_dimension batch_size 2 0 in
  let token_to_add := num_special_tokens_to_add tokenizer is_pair in
  let seq_length :=
    utils.compute_effective_axis_dimension seq_length 8 token_to_add in
  let dummy_input :=
    list_mul [str_mul (str_join " " [unk_token tokenizer]) seq_length]
             batch_size in
  do enc <- call tokenizer dummy_input framework;
  PyM.ret (dict enc).

End OnnxConfig.

(** ** [class OnnxConfigWithPast(OnnxConfig)] *)

Module OnnxConfigWithPast.

(** The base class's state plus the [use_past] flag. *)
Record t : Type := { base : OnnxConfig.t; use_past : bool }.

(** [__init__(self, config, use_past=False)] *)
Definition init (config : loc) (use_past : bool) : t :=
  {| base := OnnxConfig.init config; use_past := use_past |}.

(** [with_past(cls, config)] *)
Definition with_past {T} (cls : loc -> bool -> T) (config : loc) : T :=
  cls config true.

Definition config_values_override (self : t)
    : PyM.M (option (gmap string PyVal)) :=
  do has <- hasattr (OnnxConfig._config (base self)) "use_cache";
  if has : bool then PyM.ret (Some {[ "use_cache" := VBool (use_past self) ]})
  else PyM.ret None.

End OnnxConfigWithPast.

(** Inherited methods are the base class's, applied to the base part. *)
Coercion OnnxConfigWithPast.base : OnnxConfigWithPast.t >-> OnnxConfig.t.

(** ** Vocabulary for the statements *)

(** The object behind [l] has an attribute called [name]. *)
Definition exposes (s : Store) (l : loc) (name : string) : Prop :=
  exists o : PyObj, s !! l = Some o /\ is_Some (o !! name).

#[global] Instance exposes_dec s l name : Decision (exposes s l name).
Proof.
  refine (cast_if (decide (is_Some (s !! l ≫= fun o : PyObj => o !! name))));
    unfold exposes; destruct (s !! l) as [o |]; simpl in *.
  - exists o; auto.
  - destruct i; discriminate.
  - intros (o' & [= <-] & H); auto.
  - intros (o' & [=] & _).
Defined.

(** ** Sample data for the statements *)

(** A heap with one configuration object that has the cache flag, and one
    with a configuration object that lacks it. *)
Definition store_with_cache : Store :=
  {[ 1%positive := {[ "use_cache" := VBool true; "hidden_size" := VInt 768 ]} ]}.

Definition store_without_cache : Store :=
  {[ 1%positive := {[ "hidden_size" := VInt 768 ]} ]}.

(** A tokenizer without special tokens for single inputs; a call yields one
    row of character counts per sample and records itself on the heap at
    reference 2, away from the configuration at reference 1. *)
Definition sample_tokenizer : PreTrainedTokenizer (list Z) unit :=
  {| unk_token := "[UNK]";
     num_special_tokens_to_add := fun is_pair : bool => if is_pair then 1 else 0;
     call := fun batch _ s =>
       (inr {| data := {[ "input_ids" :=
                            (fun text => Z.of_nat (String.length text)) <$> batch ]} |},
        <[ 2%positive := {[ "called" := VBool true ]} ]> s) |}.

(** A heap whose configuration object has [use_cache] set to [None], next to
    an unrelated object. *)
Definition store_cache_none : Store :=
  {[ 1%positive := {[ "use_cache" := VNone ]};
     7%positive := {[ "vocab_size" := VInt 30522 ]} ]}.

(** A tokenizer whose call always fails, leaving the heap as it is. *)
Definition failing_tokenizer : PreTrainedTokenizer (list Z) unit :=
  {| unk_token := "<unk>";
     num_special_tokens_to_add := fun is_pair : bool => if is_pair then 3 else 2;
     call := fun _ _ s => (inl (Raise "ValueError" "unsupported tensor type"), s) |}.

(** * Properties *)

(** ** The monad and the heap probe *)

Lemma bind_ret_l {A B} (a : A) (k : A -> PyM.M B) s :
  PyM.bind (PyM.ret a) k s = k a s.
Proof. reflexivity. Qed.

Lemma bind_gets {A B} (f : Store -> A) (k : A -> PyM.M B) s :
  PyM.bind (PyM.gets f) k s = k (f s) s.
Proof. reflexivity. Qed.

Lemma final_bind_ret {A B} (m : PyM.M A) (f : A -> B) s :
  PyM.final (PyM.bind m (fun a => PyM.ret (f a))) s = PyM.final m s.
Proof.
  unfold PyM.final, PyM.bind, PyM.ret.
  destruct (m s) as [[e | a] s']; reflexivity.
Qed.

Lemma result_bind_ret {A B} (m : PyM.M A) (f : A -> B) s :
  PyM.result (PyM.bind m (fun a => PyM.ret (f a))) s
  = sum_map id f (PyM.result m s).
Proof.
  unfold PyM.result, PyM.bind, PyM.ret.
  destruct (m s) as [[e | a] s']; reflexivity.
Qed.

Lemma hasattr_run l name s :
  hasattr l name s = (inr (bool_decide (exposes s l name)), s).
Proof.
  unfold hasattr, PyM.gets. do 2 f_equal.
  apply bool_decide_ext. unfold exposes.
  destruct (s !! l) as [o |]; simpl.
  - split; [intros H; exists o; auto | intros (o' & [= <-] & H); exact H].
  - split; [intros [x Hx]; discriminate | intros (o' & [=] & _)].
Qed.

(** ** The sequence operators *)

Lemma str_join_singleton sep x : str_join sep [x] = x.
Proof. reflexivity. Qed.

Lemma append_cons c s1 s2 :
  String.append (String c s1) s2 = String c (String.append s1 s2).
Proof. reflexivity. Qed.

Lemma append_empty_r s : String.append s "" = s.
Proof.
  induction s as [| c s IH]; [reflexivity |].
  rewrite append_cons, IH. reflexivity.
Qed.

Lemma str_mul_iter s n :
  str_mul s n = Nat.iter (Z.to_nat n) (String.append s) "".
Proof.
  unfold str_mul. induction (Z.to_nat n) as [| k IH]; [reflexivity |].
  simpl. destruct k as [| k'].
  - simpl. symmetry. apply append_empty_r.
  - rewrite <- IH. reflexivity.
Qed.

Lemma str_mul_nonpos s n : n <= 0 -> str_mul s n = "".
Proof.
  intros H. rewrite str_mul_iter. replace (Z.to_nat n) with 0%nat by lia.
  reflexivity.
Qed.

Lemma str_mul_succ s n :
  0 <= n -> str_mul s (n + 1) = String.append s (str_mul s n).
Proof.
  intros H. rewrite !str_mul_iter.
  replace (Z.to_nat (n + 1)) with (S (Z.to_nat n)) by lia. reflexivity.
Qed.

Lemma append_length s1 s2 :
  String.length (String.append s1 s2)
  = (String.length s1 + String.length s2)%nat.
Proof.
  induction s1 as [| c s1 IH]; [reflexivity |].
  rewrite append_cons. simpl. congruence.
Qed.

Lemma str_mul_length s n :
  String.length (str_mul s n) = (Z.to_nat n * String.length s)%nat.
Proof.
  rewrite str_mul_iter. induction (Z.to_nat n) as [| k IH]; [reflexivity |].
  simpl. rewrite append_length, IH. reflexivity.
Qed.

Lemma list_mul_singleton {A} (x : A) n :
  list_mul [x] n = replicate (Z.to_nat n) x.
Proof.
  unfold list_mul. induction (Z.to_nat n) as [| k IH]; [reflexivity |].
  simpl. f_equal. exact IH.
Qed.

(** ** Size estimation and the external-data decision *)

Lemma compute_serialized_parameters_size_Float n :
  utils.compute_serialized_parameters_size n utils.Float = n * 4.
Proof. reflexivity. Qed.

Lemma EXTERNAL_DATA_FORMAT_SIZE_LIMIT_pow : EXTERNAL_DATA_FORMAT_SIZE_LIMIT = 2 ^ 31.
Proof. reflexivity. Qed.

(** C2: [use_external_data_format(num_parameters)] is true exactly when
    [num_parameters] times the Float32 byte width, 4, reaches 2 GiB, that is
    2^31 bytes, for every integer [num_parameters]; it is true at 536870912
    and false at 536870911. *)
Theorem use_external_data_format_threshold :
  (forall num_parameters : Z,
      OnnxConfig.use_external_data_format num_parameters = true
      <-> num_parameters * 4 >= 2 ^ 31)
  /\ OnnxConfig.use_external_data_format 536870912 = true
  /\ OnnxConfig.use_external_data_format 536870911 = false.
Proof.
  split; [| split; reflexivity].
  intros n. unfold OnnxConfig.use_external_data_format.
  rewrite compute_serialized_parameters_size_Float,
    EXTERNAL_DATA_FORMAT_SIZE_LIMIT_pow.
  rewrite Z.geb_leb, Z.leb_le. lia.
Qed.

(** ** Axis-dimension resolution *)

Lemma compute_effective_axis_dimension_dynamic d f r :
  d <= 0 -> utils.compute_effective_axis_dimension d f r = f - r.
Proof.
  intros H. unfold utils.compute_effective_axis_dimension.
  destruct (Z.leb_spec d 0); [reflexivity | lia].
Qed.

Lemma compute_effective_axis_dimension_fixed d f r :
  0 < d -> utils.compute_effective_axis_dimension d f r = d - r.
Proof.
  intros H. unfold utils.compute_effective_axis_dimension.
  destruct (Z.leb_spec d 0); [lia | reflexivity].
Qed.

(** C3: for every requested dimension [d], fallback [f] and reserved-token
    count [r], the resolver gives [f - r] when [d] is non-positive and
    [d - r] when [d] is positive; so [(-1, 2, 0)] resolves to 2,
    [(-1, 8, 2)] to 6 and [(5, 8, 2)] to 3. *)
Theorem compute_effective_axis_dimension_cases :
  (forall d f r : Z,
      (d <= 0 -> utils.compute_effective_axis_dimension d f r = f - r)
      /\ (0 < d -> utils.compute_effective_axis_dimension d f r = d - r))
  /\ utils.compute_effective_axis_dimension (-1) 2 0 = 2
  /\ utils.compute_effective_axis_dimension (-1) 8 2 = 6
  /\ utils.compute_effective_axis_dimension 5 8 2 = 3.
Proof.
  split; [| repeat split].
  intros d f r. split.
  - apply compute_effective_axis_dimension_dynamic.
  - apply compute_effective_axis_dimension_fixed.
Qed.

Lemma compute_effective_axis_dimension_cases_witness :
  (0 <= 0 /\ utils.compute_effective_axis_dimension 0 8 3 = 8 - 3)
  /\ (0 < 7 /\ utils.compute_effective_axis_dimension 7 8 3 = 7 - 3).
Proof.
  pose proof (proj1 compute_effective_axis_dimension_cases) as H.
  split; (split; [lia |]).
  - apply (proj1 (H 0 8 3)). lia.
  - apply (proj2 (H 7 8 3)). lia.
Defined.

(** ** The opset *)

(** C8: whatever the model configuration, the export configuration built by
    the [default] factory has [default_onnx_opset] equal to 11. *)
Theorem default_onnx_opset_default (config : loc) :
  OnnxConfig.default_onnx_opset (OnnxConfig.default OnnxConfig.init config) = 11.
Proof. reflexivity. Qed.

(** ** The optimizer feature vocabulary *)

Lemma DEFAULT_BERT_OPTIMIZER_FEATURES_keys_NoDup :
  NoDup (DEFAULT_BERT_OPTIMIZER_FEATURES_items.*1).
Proof. apply (bool_decide_unpack _). vm_compute. exact I. Qed.

Lemma DEFAULT_BERT_OPTIMIZER_FEATURES_lookup k v :
  DEFAULT_BERT_OPTIMIZER_FEATURES !! k = Some v
  <-> (k, v) ∈ DEFAULT_BERT_OPTIMIZER_FEATURES_items.
Proof.
  unfold DEFAULT_BERT_OPTIMIZER_FEATURES. symmetry.
  apply elem_of_list_to_map, DEFAULT_BERT_OPTIMIZER_FEATURES_keys_NoDup.
Qed.

(** C10: the optimizer feature vocabulary is a fixed map with exactly eight
    boolean flags: [enable_gelu] (fused GELU), [enable_layer_norm],
    [enable_attention], [enable_skip_layer_norm], [enable_embed_layer_norm],
    [enable_bias_skip_layer_norm], [enable_bias_gelu] and
    [enable_gelu_approximation]; every default is true except that of the
    approximate-GELU flag, which is false. *)
Theorem DEFAULT_BERT_OPTIMIZER_FEATURES_vocabulary :
  size DEFAULT_BERT_OPTIMIZER_FEATURES = 8%nat
  /\ dom DEFAULT_BERT_OPTIMIZER_FEATURES
     = list_to_set (C := gset string)
         [ "enable_gelu"; "enable_layer_norm"; "enable_attention";
           "enable_skip_layer_norm"; "enable_embed_layer_norm";
           "enable_bias_skip_layer_norm"; "enable_bias_gelu";
           "enable_gelu_approximation" ]
  /\ DEFAULT_BERT_OPTIMIZER_FEATURES !! "enable_gelu_approximation" = Some false
  /\ (forall (k : string) (v : bool),
        DEFAULT_BERT_OPTIMIZER_FEATURES !! k = Some v ->
        v = if decide (k = "enable_gelu_approximation") then false else true).
Proof.
  split; [| split; [| split]].
  - unfold DEFAULT_BERT_OPTIMIZER_FEATURES.
    rewrite map_size_list_to_map by apply DEFAULT_BERT_OPTIMIZER_FEATURES_keys_NoDup.
    reflexivity.
  - unfold DEFAULT_BERT_OPTIMIZER_FEATURES. rewrite dom_list_to_map_L.
    reflexivity.
  - apply DEFAULT_BERT_OPTIMIZER_FEATURES_lookup.
    unfold DEFAULT_BERT_OPTIMIZER_FEATURES_items. set_solver.
  - intros k v Hk. apply DEFAULT_BERT_OPTIMIZER_FEATURES_lookup in Hk.
    unfold DEFAULT_BERT_OPTIMIZER_FEATURES_items in Hk.
    repeat (apply elem_of_cons in Hk as [[= -> ->] | Hk]; [reflexivity |]).
    apply elem_of_nil in Hk. contradiction.
Qed.

Lemma DEFAULT_BERT_OPTIMIZER_FEATURES_vocabulary_witness :
  DEFAULT_BERT_OPTIMIZER_FEATURES !! "enable_attention" = Some true
  /\ true = (if decide ("enable_attention" = "enable_gelu_approximation")
             then false else true).
Proof.
  assert (DEFAULT_BERT_OPTIMIZER_FEATURES !! "enable_attention" = Some true)
    as H by (vm_compute; reflexivity).
  split; [exact H |].
  exact (proj2 (proj2 (proj2 DEFAULT_BERT_OPTIMIZER_FEATURES_vocabulary))
           "enable_attention" true H).
Defined.

(** ** The override hooks *)

Lemma values_override_run (self : OnnxConfig.t) s :
  OnnxConfig.values_override self s
  = (inr (if bool_decide (exposes s (OnnxConfig._config self) "use_cache")
          then Some {[ "use_cache" := VBool false ]} else None), s).
Proof.
  unfold OnnxConfig.values_override, PyM.bind. rewrite hasattr_run.
  case_bool_decide; reflexivity.
Qed.

Lemma config_values_override_run (self : OnnxConfigWithPast.t) s :
  OnnxConfigWithPast.config_values_override self s
  = (inr (if bool_decide (exposes s (OnnxConfig._config self) "use_cache")
          then Some {[ "use_cache" := VBool (OnnxConfigWithPast.use_past self) ]}
          else None), s).
Proof.
  unfold OnnxConfigWithPast.config_values_override, PyM.bind.
  rewrite hasattr_run. case_bool_decide; reflexivity.
Qed.

Lemma values_override_read_only (self : OnnxConfig.t) :
  PyM.read_only (OnnxConfig.values_override self).
Proof. intros s. unfold PyM.final. rewrite values_override_run. reflexivity. Qed.

Lemma config_values_override_read_only (self : OnnxConfigWithPast.t) :
  PyM.read_only (OnnxConfigWithPast.config_values_override self).
Proof.
  intros s. unfold PyM.final. rewrite config_values_override_run. reflexivity.
Qed.

Lemma store_with_cache_exposes : exposes store_with_cache 1 "use_cache".
Proof. apply (bool_decide_unpack _). vm_compute. exact I. Qed.

Lemma store_without_cache_hides : ~ exposes store_without_cache 1 "use_cache".
Proof. apply (bool_decide_unpack _). vm_compute. exact I. Qed.

(** C4: for every model configuration, [values_override] returns the
    one-entry map [{use_cache: False}] when the configuration has the
    optional [use_cache] attribute and [None] when it has not; in both cases
    it returns normally, the missing attribute raises nothing. *)
Theorem values_override_probe (config : loc) (s : Store) :
  let self := OnnxConfig.default OnnxConfig.init config in
  (exposes s config "use_cache" ->
     PyM.result (OnnxConfig.values_override self) s
     = inr (Some {[ "use_cache" := VBool false ]}))
  /\ (~ exposes s config "use_cache" ->
     PyM.result (OnnxConfig.values_override self) s = inr None).
Proof.
  intros self. unfold PyM.result. rewrite values_override_run. simpl.
  split; intros H.
  - rewrite bool_decide_eq_true_2 by exact H. reflexivity.
  - rewrite bool_decide_eq_false_2 by exact H. reflexivity.
Qed.

Lemma values_override_probe_witness :
  PyM.result (OnnxConfig.values_override (OnnxConfig.init 1)) store_with_cache
  = inr (Some {[ "use_cache" := VBool false ]})
  /\ PyM.result (OnnxConfig.values_override (OnnxConfig.init 1))
       store_without_cache = inr None.
Proof.
  split.
  - exact (proj1 (values_override_probe 1 store_with_cache)
             store_with_cache_exposes).
  - exact (proj2 (values_override_probe 1 store_without_cache)
             store_without_cache_hides).
Defined.

(** C5: the instance built by [with_past] has [use_past = True], and on a
    configuration with the [use_cache] attribute its
    [config_values_override] is [{use_cache: True}]; in general
    [config_values_override] is [{use_cache: use_past}] when the attribute is
    there and [None] when it is absent. *)
Theorem config_values_override_use_past
    (config : loc) (use_past : bool) (s : Store) :
  let past := OnnxConfigWithPast.with_past OnnxConfigWithPast.init config in
  let self := OnnxConfigWithPast.init config use_past in
  OnnxConfigWithPast.use_past past = true
  /\ (exposes s config "use_cache" ->
      PyM.result (OnnxConfigWithPast.config_values_override past) s
      = inr (Some {[ "use_cache" := VBool true ]}))
  /\ (exposes s config "use_cache" ->
      PyM.result (OnnxConfigWithPast.config_values_override self) s
      = inr (Some {[ "use_cache" := VBool use_past ]}))
  /\ (~ exposes s config "use_cache" ->
      PyM.result (OnnxConfigWithPast.config_values_override self) s = inr None).
Proof.
  intros past self. unfold PyM.result. rewrite !config_values_override_run.
  simpl. split; [reflexivity |].
  split; [| split]; intros H.
  - rewrite bool_decide_eq_true_2 by exact H. reflexivity.
  - rewrite bool_decide_eq_true_2 by exact H. reflexivity.
  - rewrite bool_decide_eq_false_2 by exact H. reflexivity.
Qed.

Lemma config_values_override_use_past_witness :
  PyM.result
    (OnnxConfigWithPast.config_values_override
       (OnnxConfigWithPast.with_past OnnxConfigWithPast.init 1))
    store_with_cache
  = inr (Some {[ "use_cache" := VBool true ]})
  /\ PyM.result
       (OnnxConfigWithPast.config_values_override
          (OnnxConfigWithPast.init 1 false))
       store_with_cache
     = inr (Some {[ "use_cache" := VBool false ]})
  /\ PyM.result
       (OnnxConfigWithPast.config_values_override
          (OnnxConfigWithPast.init 1 true))
       store_without_cache
     = inr None.
Proof.
  split; [| split].
  - exact (proj1 (proj2 (config_values_override_use_past 1 true
             store_with_cache)) store_with_cache_exposes).
  - exact (proj1 (proj2 (proj2 (config_values_override_use_past 1 false
             store_with_cache))) store_with_cache_exposes).
  - exact (proj2 (proj2 (proj2 (config_values_override_use_past 1 true
             store_without_cache))) store_without_cache_hides).
Defined.

(** C7: on a configuration with the [use_cache] attribute, an
    [OnnxConfigWithPast] instance's [values_override] is [{use_cache: False}]
    for both values of [use_past]: the method is inherited unchanged, and
    only [config_values_override] looks at [use_past]. *)
Theorem values_override_ignores_use_past
    (config : loc) (use_past : bool) (s : Store) :
  exposes s config "use_cache" ->
  PyM.result
    (OnnxConfig.values_override (OnnxConfigWithPast.init config use_past)) s
  = inr (Some {[ "use_cache" := VBool false ]}).
Proof.
  intros H. unfold PyM.result. rewrite values_override_run. simpl.
  rewrite bool_decide_eq_true_2 by exact H. reflexivity.
Qed.

Lemma values_override_ignores_use_past_witness :
  exposes store_with_cache 1 "use_cache"
  /\ PyM.result
       (OnnxConfig.values_override (OnnxConfigWithPast.init 1 true))
       store_with_cache
     = inr (Some {[ "use_cache" := VBool false ]}).
Proof.
  split.
  - apply (bool_decide_unpack _). vm_compute. exact I.
  - apply (values_override_ignores_use_past 1 true store_with_cache).
    apply (bool_decide_unpack _). vm_compute. exact I.
Defined.

(** ** Dummy inputs *)

Section DummyInputs.

Context {Tensor TensorType : Type}.
Implicit Types (tokenizer : PreTrainedTokenizer Tensor TensorType)
               (framework : option TensorType).

(** The text of one sample: the unknown token, [n] times in a row. *)
Lemma dummy_text tokenizer n :
  str_mul (str_join " " [unk_token tokenizer]) n
  = Nat.iter (Z.to_nat n) (String.append (unk_token tokenizer)) "".
Proof. rewrite str_join_singleton. apply str_mul_iter. Qed.

Lemma generate_dummy_inputs_unfold
    (self : OnnxConfig.t) tokenizer batch_size seq_length is_pair framework :
  OnnxConfig.generate_dummy_inputs self tokenizer batch_size seq_length
    is_pair framework
  = (do enc <- call tokenizer
       (replicate
          (Z.to_nat (utils.compute_effective_axis_dimension batch_size 2 0))
          (Nat.iter
             (Z.to_nat
                (utils.compute_effective_axis_dimension seq_length 8
                   (num_special_tokens_to_add tokenizer is_pair)))
             (String.append (unk_token tokenizer)) ""))
       framework;
     PyM.ret (dict enc)).
Proof.
  unfold OnnxConfig.generate_dummy_inputs.
  rewrite list_mul_singleton, dummy_text. reflexivity.
Qed.

(** C1: with a tokenizer that adds no special token to a single input,
    [generate_dummy_inputs] called with [batch_size = -1],
    [seq_length = -1] and [is_pair = False] resolves the batch dimension
    to 2 (fixed 2, reserved 0) and the sequence dimension to 8 (fixed 8),
    and the tokenizer receives a list of exactly two samples, each the
    unknown token written 8 times. *)
Theorem generate_dummy_inputs_dynamic_axes
    (self : OnnxConfig.t) tokenizer framework :
  num_special_tokens_to_add tokenizer false = 0 ->
  let sample := Nat.iter 8 (String.append (unk_token tokenizer)) "" in
  utils.compute_effective_axis_dimension (-1) 2 0 = 2
  /\ utils.compute_effective_axis_dimension (-1) 8
       (num_special_tokens_to_add tokenizer false) = 8
  /\ OnnxConfig.generate_dummy_inputs self tokenizer (-1) (-1) false framework
     = (do enc <- call tokenizer [sample; sample] framework;
        PyM.ret (dict enc)).
Proof.
  intros H sample. split; [reflexivity |]. split.
  - rewrite H. reflexivity.
  - rewrite generate_dummy_inputs_unfold, H. reflexivity.
Qed.

(** C6: for every tokenizer and requested dimensions,
    [generate_dummy_inputs] builds one text, the unknown token repeated
    [seq_length] times (the resolved length) as a single string, puts that
    same text [batch_size] times (the resolved size) in the batch, and
    returns what the tokenizer returns on that batch for the given
    framework as a plain dictionary: when the tokenizer hands back an
    encoding, the result is the dictionary of that encoding's own items,
    name by name, and the heap is the one the tokenizer left; when the
    tokenizer raises, the same exception comes out. *)
Theorem generate_dummy_inputs_batch
    (self : OnnxConfig.t) tokenizer batch_size seq_length is_pair framework :
  let batch := utils.compute_effective_axis_dimension batch_size 2 0 in
  let seq :=
    utils.compute_effective_axis_dimension seq_length 8
      (num_special_tokens_to_add tokenizer is_pair) in
  let text := Nat.iter (Z.to_nat seq) (String.append (unk_token tokenizer)) "" in
  let dummy_input := replicate (Z.to_nat batch) text in
  String.length text = (Z.to_nat seq * String.length (unk_token tokenizer))%nat
  /\ length dummy_input = Z.to_nat batch
  /\ OnnxConfig.generate_dummy_inputs self tokenizer batch_size seq_length
       is_pair framework
     = (do enc <- call tokenizer dummy_input framework; PyM.ret (data enc))
  /\ (forall (s s' : Store) (enc : BatchEncoding Tensor),
        call tokenizer dummy_input framework s = (inr enc, s') ->
        exists m : gmap string Tensor,
          OnnxConfig.generate_dummy_inputs self tokenizer batch_size
            seq_length is_pair framework s = (inr m, s')
          /\ forall name : string, m !! name = data enc !! name)
  /\ (forall (s s' : Store) (e : PyExn),
        call tokenizer dummy_input framework s = (inl e, s') ->
        OnnxConfig.generate_dummy_inputs self tokenizer batch_size
          seq_length is_pair framework s = (inl e, s')).
Proof.
  intros batch seq text dummy_input. split; [| split; [| split; [| split]]].
  - subst text. rewrite <- str_mul_iter. apply str_mul_length.
  - apply length_replicate.
  - subst dummy_input text seq batch. rewrite generate_dummy_inputs_unfold.
    reflexivity.
  - intros s s' enc H. exists (data enc). split; [| reflexivity].
    subst dummy_input text seq batch. rewrite generate_dummy_inputs_unfold.
    unfold PyM.bind. rewrite H. reflexivity.
  - intros s s' e H.
    subst dummy_input text seq batch. rewrite generate_dummy_inputs_unfold.
    unfold PyM.bind. rewrite H. reflexivity.
Qed.

(** The only heap effect of [generate_dummy_inputs] is the tokenizer's. *)
Lemma generate_dummy_inputs_final
    (self : OnnxConfig.t) tokenizer batch_size seq_length is_pair framework s :
  exists dummy_input,
    PyM.final
      (OnnxConfig.generate_dummy_inputs self tokenizer batch_size seq_length
         is_pair framework) s
    = PyM.final (call tokenizer dummy_input framework) s.
Proof.
  eexists. unfold OnnxConfig.generate_dummy_inputs. apply final_bind_ret.
Qed.

(** C9: no operation of [OnnxConfig] and [OnnxConfigWithPast] changes the
    wrapped model configuration.  The two override hooks hand back the heap
    they were given, the overrides being returned as data;
    [default_onnx_opset] and [use_external_data_format] have no access to
    the heap; and [generate_dummy_inputs] writes nothing besides what the
    tokenizer's call writes, so the configuration object stays as it was
    whenever the tokenizer leaves it alone. *)
Theorem config_never_mutated
    (self : OnnxConfigWithPast.t) tokenizer batch_size seq_length is_pair
    framework num_parameters (s : Store) :
  let config := OnnxConfig._config self in
  (forall dummy_input s0,
      PyM.final (call tokenizer dummy_input framework) s0 !! config
      = s0 !! config) ->
  PyM.final (OnnxConfig.values_override self) s = s
  /\ PyM.final (OnnxConfigWithPast.config_values_override self) s = s
  /\ PyM.final (PyM.ret (OnnxConfig.default_onnx_opset self)) s = s
  /\ PyM.final (PyM.ret (OnnxConfig.use_external_data_format num_parameters)) s
     = s
  /\ PyM.final
       (OnnxConfig.generate_dummy_inputs self tokenizer batch_size seq_length
          is_pair framework) s !! config
     = s !! config.
Proof.
  intros config Htok. repeat split.
  - apply values_override_read_only.
  - apply config_values_override_read_only.
  - destruct (generate_dummy_inputs_final self tokenizer batch_size
                seq_length is_pair framework s) as [dummy_input ->].
    apply Htok.
Qed.

End DummyInputs.

Lemma generate_dummy_inputs_dynamic_axes_witness :
  num_special_tokens_to_add sample_tokenizer false = 0
  /\ PyM.result
       (OnnxConfig.generate_dummy_inputs (OnnxConfig.init 1) sample_tokenizer
          (-1) (-1) false None) store_with_cache
     = inr {[ "input_ids" := [40; 40] ]}.
Proof.
  split; [reflexivity |].
  rewrite (proj2 (proj2 (generate_dummy_inputs_dynamic_axes (OnnxConfig.init 1)
                           sample_tokenizer None eq_refl))).
  reflexivity.
Defined.

Lemma generate_dummy_inputs_batch_witness :
  (exists m : gmap string (list Z),
      OnnxConfig.generate_dummy_inputs (OnnxConfig.init 1) sample_tokenizer
        3 5 true None store_with_cache
      = (inr m, <[ 2%positive := {[ "called" := VBool true ]} ]> store_with_cache)
      /\ forall name : string,
           m !! name
           = ({[ "input_ids" := [20; 20; 20] ]} : gmap string (list Z)) !! name)
  /\ OnnxConfig.generate_dummy_inputs (OnnxConfig.init 1) failing_tokenizer
       (-1) (-1) false None store_with_cache
     = (inl (Raise "ValueError" "unsupported tensor type"), store_with_cache).
Proof.
  split.
  - exact (proj1 (proj2 (proj2 (proj2
             (generate_dummy_inputs_batch (OnnxConfig.init 1) sample_tokenizer
                3 5 true None))))
             store_with_cache
             (<[ 2%positive := {[ "called" := VBool true ]} ]> store_with_cache)
             {| data := {[ "input_ids" := [20; 20; 20] ]} |}
             eq_refl).
  - exact (proj2 (proj2 (proj2 (proj2
             (generate_dummy_inputs_batch (OnnxConfig.init 1) failing_tokenizer
                (-1) (-1) false None))))
             store_with_cache store_with_cache
             (Raise "ValueError" "unsupported tensor type")
             eq_refl).
Defined.

Lemma sample_tokenizer_frame dummy_input framework (s0 : Store) :
  PyM.final (call sample_tokenizer dummy_input framework) s0 !! 1%positive
  = s0 !! 1%positive.
Proof. apply lookup_insert_ne. discriminate. Qed.

Lemma config_never_mutated_witness :
  PyM.final
    (OnnxConfig.generate_dummy_inputs (OnnxConfigWithPast.init 1 true)
       sample_tokenizer 3 5 true None) store_with_cache !! 1%positive
  = store_with_cache !! 1%positive
  /\ PyM.final
       (OnnxConfig.generate_dummy_inputs (OnnxConfigWithPast.init 1 true)
          sample_tokenizer 3 5 true None) store_with_cache
     <> store_with_cache.
Proof.
  split.
  - apply (config_never_mutated (OnnxConfigWithPast.init 1 true)
             sample_tokenizer 3 5 true None 0 store_with_cache).
    intros dummy_input s0. apply sample_tokenizer_frame.
  - intros H. apply (f_equal (fun m : Store => m !! 2%positive)) in H.
    vm_compute in H. discriminate H.
Defined.

(** * Further properties of the module *)

(** ** The hooks as views of the configuration *)

Lemma singleton_override_inj (v w : PyVal) :
  (inr (Some {[ "use_cache" := v ]}) : PyExn + option (gmap string PyVal))
  = inr (Some {[ "use_cache" := w ]}) ->
  v = w.
Proof.
  intros H.
  apply (f_equal (fun r : PyExn + option (gmap string PyVal) =>
                    match r with
                    | inr (Some m) => m !! "use_cache"
                    | _ => None
                    end)) in H.
  rewrite !lookup_singleton_eq in H. congruence.
Qed.

Lemma exposes_insert (s : Store) (l : loc) (o : PyObj) name v :
  exposes (<[ l := <[ name := v ]> o ]> s) l name.
Proof.
  exists (<[ name := v ]> o). split.
  - apply lookup_insert_eq.
  - rewrite lookup_insert_eq. eauto.
Qed.

Lemma exposes_delete (s : Store) (l : loc) (o : PyObj) name :
  ~ exposes (<[ l := delete name o ]> s) l name.
Proof.
  intros (o' & Ho & Hn). rewrite lookup_insert_eq in Ho.
  injection Ho as <-. rewrite lookup_delete_eq in Hn.
  destruct Hn as [x Hx]. discriminate.
Qed.

Lemma exposes_other (s : Store) (l l' : loc) (o : PyObj) name :
  l <> l' -> exposes (<[ l' := o ]> s) l name <-> exposes s l name.
Proof.
  intros Hne. unfold exposes. rewrite lookup_insert_ne by congruence.
  reflexivity.
Qed.

(** X1: the two hooks of an [OnnxConfigWithPast] instance return the same
    thing exactly when [use_past] is off or the configuration has no
    [use_cache] attribute; with [use_past] on and the attribute present they
    disagree ([{use_cache: True}] against [{use_cache: False}]). *)
Theorem override_hooks_agree (self : OnnxConfigWithPast.t) (s : Store) :
  PyM.result (OnnxConfigWithPast.config_values_override self) s
  = PyM.result (OnnxConfig.values_override self) s
  <-> (OnnxConfigWithPast.use_past self = false
       \/ ~ exposes s (OnnxConfig._config self) "use_cache").
Proof.
  unfold PyM.result.
  rewrite config_values_override_run, values_override_run. simpl.
  case_bool_decide as He.
  - destruct (OnnxConfigWithPast.use_past self); split.
    + intros H. apply singleton_override_inj in H. discriminate.
    + intros [H | H]; [discriminate | contradiction].
    + intros _. left. reflexivity.
    + intros _. reflexivity.
  - split; [intros _; right; exact He | intros _; reflexivity].
Qed.

(** X2: what the hooks return depends on the heap only through whether the
    configuration object has a [use_cache] attribute: on two heaps that
    agree on that, each hook returns the same value, whatever the
    attribute's value and whatever else the heaps hold. *)
Theorem override_hooks_presence_only
    (self : OnnxConfigWithPast.t) (s s' : Store) :
  (exposes s (OnnxConfig._config self) "use_cache"
   <-> exposes s' (OnnxConfig._config self) "use_cache") ->
  PyM.result (OnnxConfig.values_override self) s
  = PyM.result (OnnxConfig.values_override self) s'
  /\ PyM.result (OnnxConfigWithPast.config_values_override self) s
     = PyM.result (OnnxConfigWithPast.config_values_override self) s'.
Proof.
  intros H. unfold PyM.result.
  rewrite !config_values_override_run, !values_override_run. simpl.
  rewrite (bool_decide_ext _ _ H). split; reflexivity.
Qed.

Lemma override_hooks_presence_only_witness :
  PyM.result (OnnxConfig.values_override (OnnxConfigWithPast.init 1 true))
    store_with_cache
  = PyM.result (OnnxConfig.values_override (OnnxConfigWithPast.init 1 true))
      store_cache_none
  /\ PyM.result
       (OnnxConfigWithPast.config_values_override
          (OnnxConfigWithPast.init 1 true)) store_with_cache
     = PyM.result
         (OnnxConfigWithPast.config_values_override
            (OnnxConfigWithPast.init 1 true)) store_cache_none.
Proof.
  apply (override_hooks_presence_only (OnnxConfigWithPast.init 1 true)
           store_with_cache store_cache_none).
  split; intros _; apply (bool_decide_unpack _); vm_compute; exact I.
Defined.

(** X3: the configuration is held by reference and probed at each call:
    once the object behind the reference has [use_cache] set, to any value
    at all ([None] included), [values_override] returns
    [{use_cache: False}], and once the attribute is removed it returns
    [None]; replacing some other object on the heap changes nothing. *)
Theorem values_override_tracks_config
    (self : OnnxConfig.t) (s : Store) (o : PyObj) (v : PyVal) :
  let config := OnnxConfig._config self in
  PyM.result (OnnxConfig.values_override self)
    (<[ config := <[ "use_cache" := v ]> o ]> s)
  = inr (Some {[ "use_cache" := VBool false ]})
  /\ PyM.result (OnnxConfig.values_override self)
       (<[ config := delete "use_cache" o ]> s)
     = inr None
  /\ forall l' : loc, l' <> config ->
       PyM.result (OnnxConfig.values_override self) (<[ l' := o ]> s)
       = PyM.result (OnnxConfig.values_override self) s.
Proof.
  intros config. unfold PyM.result. rewrite !values_override_run. simpl.
  split; [| split].
  - rewrite bool_decide_eq_true_2 by apply exposes_insert. reflexivity.
  - rewrite bool_decide_eq_false_2 by apply exposes_delete. reflexivity.
  - intros l' Hne. rewrite values_override_run. simpl.
    rewrite (bool_decide_ext _ _ (exposes_other s config l' o "use_cache"
                                    (not_eq_sym Hne))).
    reflexivity.
Qed.

Lemma values_override_tracks_config_witness :
  PyM.result (OnnxConfig.values_override (OnnxConfig.init 1))
    (<[ 2%positive := ∅ ]> store_without_cache)
  = PyM.result (OnnxConfig.values_override (OnnxConfig.init 1))
      store_without_cache.
Proof.
  apply (proj2 (proj2 (values_override_tracks_config (OnnxConfig.init 1)
                         store_without_cache ∅ VNone)) 2%positive).
  discriminate.
Defined.

(** ** The shape of the dummy batch *)

Lemma iter_append_length (n : nat) (u : string) :
  String.length (Nat.iter n (String.append u) "")
  = (n * String.length u)%nat.
Proof.
  induction n as [| k IH]; [reflexivity |].
  simpl. rewrite append_length, IH. reflexivity.
Qed.

Lemma length_zero_empty (s : string) : String.length s = 0%nat <-> s = "".
Proof. destruct s; simpl; split; intros H; congruence. Qed.

Lemma iter_append_empty (n : nat) (u : string) :
  Nat.iter n (String.append u) "" = "" <-> n = 0%nat \/ u = "".
Proof.
  rewrite <- length_zero_empty, iter_append_length, <- length_zero_empty.
  apply Nat.eq_mul_0.
Qed.

Lemma batch_dimension (batch_size : Z) :
  utils.compute_effective_axis_dimension batch_size 2 0
  = if batch_size <=? 0 then 2 else batch_size.
Proof.
  unfold utils.compute_effective_axis_dimension.
  destruct (batch_size <=? 0); lia.
Qed.

Section DummyBatch.

Context {Tensor TensorType : Type}.
Implicit Types (tokenizer : PreTrainedTokenizer Tensor TensorType)
               (framework : option TensorType).

(** X4: the batch handed to the tokenizer is never empty: it has
    [batch_size] samples when [batch_size] is positive and 2 samples for
    every other value, zero and all negative numbers included, not only
    for the documented -1. *)
Theorem generate_dummy_inputs_batch_size
    (self : OnnxConfig.t) tokenizer batch_size seq_length is_pair framework :
  exists dummy_input : list string,
    OnnxConfig.generate_dummy_inputs self tokenizer batch_size seq_length
      is_pair framework
    = (do enc <- call tokenizer dummy_input framework; PyM.ret (dict enc))
    /\ Z.of_nat (length dummy_input)
       = (if batch_size <=? 0 then 2 else batch_size)
    /\ dummy_input <> [].
Proof.
  eexists. split; [apply generate_dummy_inputs_unfold |].
  rewrite length_replicate, batch_dimension.
  destruct (Z.leb_spec batch_size 0) as [H | H].
  - split; [reflexivity | discriminate].
  - split; [lia |].
    destruct (Z.to_nat batch_size) as [| k] eqn:E; [lia | discriminate].
Qed.

(** X5: when the tokenizer's special tokens fit in the base length (the
    requested [seq_length] if positive, 8 otherwise), each sample is the
    unknown token written [copies] times with [copies] plus the special
    tokens equal to that base length: the room the tokenizer needs is
    taken out of the text, not added to it. *)
Theorem generate_dummy_inputs_token_budget
    (self : OnnxConfig.t) tokenizer batch_size seq_length is_pair framework :
  let base := if seq_length <=? 0 then 8 else seq_length in
  let reserved := num_special_tokens_to_add tokenizer is_pair in
  reserved <= base ->
  exists (copies batch : nat),
    OnnxConfig.generate_dummy_inputs self tokenizer batch_size seq_length
      is_pair framework
    = (do enc <- call tokenizer
         (replicate batch
            (Nat.iter copies (String.append (unk_token tokenizer)) ""))
         framework;
       PyM.ret (dict enc))
    /\ Z.of_nat copies + reserved = base.
Proof.
  intros base reserved H. do 2 eexists.
  split; [apply generate_dummy_inputs_unfold |].
  unfold utils.compute_effective_axis_dimension. fold base reserved. lia.
Qed.

(** X6: the samples are the empty string exactly when the special tokens
    use up the whole base length (reserved at least the requested
    [seq_length], or at least 8 for a non-positive request) or the unknown
    token itself is empty; the tokenizer is then still called, on a
    non-empty batch of empty strings, and nothing is raised before the
    call. *)
Theorem generate_dummy_inputs_blank_samples
    (self : OnnxConfig.t) tokenizer batch_size seq_length is_pair framework :
  let base := if seq_length <=? 0 then 8 else seq_length in
  let reserved := num_special_tokens_to_add tokenizer is_pair in
  exists (text : string) (batch : nat),
    OnnxConfig.generate_dummy_inputs self tokenizer batch_size seq_length
      is_pair framework
    = (do enc <- call tokenizer (replicate batch text) framework;
       PyM.ret (dict enc))
    /\ (0 < batch)%nat
    /\ (text = "" <-> base <= reserved \/ unk_token tokenizer = "").
Proof.
  intros base reserved. do 2 eexists.
  split; [apply generate_dummy_inputs_unfold |]. split.
  - rewrite batch_dimension. destruct (Z.leb_spec batch_size 0); lia.
  - rewrite iter_append_empty.
    unfold utils.compute_effective_axis_dimension. fold base reserved.
    split; (intros [H | H]; [left; lia | right; exact H]).
Qed.

End DummyBatch.

Lemma generate_dummy_inputs_token_budget_witness :
  1 <= 5
  /\ exists (copies batch : nat),
       OnnxConfig.generate_dummy_inputs (OnnxConfig.init 1) sample_tokenizer
         3 5 true None
       = (do enc <- call sample_tokenizer
            (replicate batch
               (Nat.iter copies (String.append (unk_token sample_tokenizer)) ""))
            None;
          PyM.ret (dict enc))
       /\ Z.of_nat copies + 1 = 5.
Proof.
  split; [lia |].
  apply (generate_dummy_inputs_token_budget (OnnxConfig.init 1)
           sample_tokenizer 3 5 true None).
  simpl. lia.
Defined.

(** ** The external-data decision as a threshold *)

Lemma use_external_data_format_count (n : Z) :
  OnnxConfig.use_external_data_format n = true <-> 536870912 <= n.
Proof.
  unfold OnnxConfig.use_external_data_format.
  rewrite compute_serialized_parameters_size_Float,
    EXTERNAL_DATA_FORMAT_SIZE_LIMIT_pow, Z.geb_leb, Z.leb_le.
  lia.
Qed.

(** X7: the external-data decision is monotone in the parameter count:
    once a model needs the external data format, every model with at least
    as many parameters needs it too; and a count that is zero or negative
    (the function does not reject it) never asks for it. *)
Theorem use_external_data_format_monotone :
  (forall n m : Z,
      n <= m ->
      OnnxConfig.use_external_data_format n = true ->
      OnnxConfig.use_external_data_format m = true)
  /\ (forall n : Z, n <= 0 -> OnnxConfig.use_external_data_format n = false).
Proof.
  split.
  - intros n m Hle Hn. apply use_external_data_format_count.
    apply use_external_data_format_count in Hn. lia.
  - intros n Hn.
    destruct (OnnxConfig.use_external_data_format n) eqn:E; [| reflexivity].
    apply use_external_data_format_count in E. lia.
Qed.

Lemma use_external_data_format_monotone_witness :
  OnnxConfig.use_external_data_format 1073741824 = true
  /\ OnnxConfig.use_external_data_format (-4) = false.
Proof.
  split.
  - apply (proj1 use_external_data_format_monotone 536870912 1073741824);
      [lia | reflexivity].
  - apply (proj2 use_external_data_format_monotone (-4)). lia.
Defined.
